(** * calculator.py: four arithmetic functions and a chainable running total

    The module offers the free functions [add], [subtract], [multiply] and
    [divide], and the class [Calculator], an object with one attribute
    [value] whose methods update that attribute in place and return the
    object itself.

    The embedding keeps the shape of the source:
    - numbers are IEEE 754 binary64 values (Python's [float], the annotated
      type of every parameter and of [value]), with the operations of
      [SpecFloat]: signed zeros, infinities and NaN included, rounding to
      nearest with ties to even.  Operands of other types, which the
      annotations do not name, are outside the embedding;
    - the arithmetic is reached through the interface [Arith], the operators
      [+ - * / ==] of the source, so that the same program text can also be
      read over exact rationals;
    - [raise] is an outcome of its own, next to a returned value;
    - instances of [Calculator] live in a store indexed by references, and a
      method takes and returns a reference. *)

From stdpp Require Import base option gmap strings.
From Stdlib Require Import ZArith QArith Qcanon Field SpecFloat Lia.
Close Scope Qc_scope.
Close Scope Q_scope.

(** ** Outcomes of a call *)

(** The exceptions the module can meet: the [ValueError] it raises itself and
    the [ZeroDivisionError] of the built-in [/]. *)
Inductive exception : Type :=
  | ValueError (msg : string)
  | ZeroDivisionError.

(** A call returns a value or raises.  [Stuck] is the outcome of using a
    reference that names no object; Python has no such references, and the
    theorems show that no method reaches it on an allocated instance. *)
Inductive outcome (A : Type) : Type :=
  | Return (a : A)
  | Raise (e : exception)
  | Stuck.
Arguments Return {A} a.
Arguments Raise {A} e.
Arguments Stuck {A}.

Definition raises {A : Type} (r : outcome A) : bool :=
  match r with Raise _ => true | _ => false end.

(** ** The arithmetic of the operands *)

(** The operators the source applies to its operands.  [num_quot a b] is the
    quotient for a divisor that is not zero; the operator [/] itself is
    [truediv] below.  [num_zero] is the value of the literals [0] and [0.0]. *)
Class Arith (num : Type) : Type := {
  num_add : num → num → num;
  num_sub : num → num → num;
  num_mul : num → num → num;
  num_quot : num → num → num;
  num_eq : num → num → bool;
  num_zero : num
}.

Declare Scope num_scope.
Delimit Scope num_scope with num.
Notation "a + b" := (num_add a b) : num_scope.
Notation "a - b" := (num_sub a b) : num_scope.
Notation "a * b" := (num_mul a b) : num_scope.
Notation "a == b" := (num_eq a b) (at level 70, no associativity) : num_scope.
Notation "0" := num_zero : num_scope.

(** [a / b]: the built-in true division raises [ZeroDivisionError] on a zero
    divisor and is the quotient otherwise. *)
Definition truediv {num : Type} `{!Arith num} (a b : num) : outcome num :=
  if (b == 0)%num then Raise ZeroDivisionError else Return (num_quot a b).

(** *** binary64 *)

Definition float : Type := spec_float.
Definition prec : Z := 53.
Definition emax : Z := 1024.

#[export] Instance binary64 : Arith float := {|
  num_add := SFadd prec emax;
  num_sub := SFsub prec emax;
  num_mul := SFmul prec emax;
  num_quot := SFdiv prec emax;
  num_eq := SFeqb;
  num_zero := S754_zero false
|}.

(** The float nearest to an integer (ties to even), as [float(z)] and as a
    literal such as [10.0]. *)
Definition float_of_Z (z : Z) : float := binary_normalize prec emax z 0 false.

(** The float nearest to [m * 2 ** e] (ties to even), such as [0.5] for
    [m = 1] and [e = -1]. *)
Definition float_of_scaled (m e : Z) : float := binary_normalize prec emax m e false.

Definition is_finite (x : float) : bool :=
  match x with
  | S754_zero _ | S754_finite _ _ _ => true
  | S754_infinity _ | S754_nan => false
  end.

Definition is_nan (x : float) : bool :=
  match x with S754_nan => true | _ => false end.

Definition is_zero (x : float) : bool :=
  match x with S754_zero _ => true | _ => false end.

(** *** exact rationals *)

#[export] Instance exact : Arith Qc := {|
  num_add := Qcplus;
  num_sub := Qcminus;
  num_mul := Qcmult;
  num_quot := Qcdiv;
  num_eq := λ a b, bool_decide (a = b);
  num_zero := Q2Qc 0
|}.

(** ** The free functions *)

Section functions.
Context {num : Type} `{!Arith num}.
Local Open Scope num_scope.

Definition add (a b : num) : outcome num := Return (a + b).

Definition subtract (a b : num) : outcome num := Return (a - b).

Definition multiply (a b : num) : outcome num := Return (a * b).

Definition divide (a b : num) : outcome num :=
  if b == 0 then Raise (ValueError "Cannot divide by zero")
  else truediv a b.
End functions.

(** ** The class [Calculator] *)

Abbreviation loc := positive.

(** An instance: its one attribute. *)
Record object (num : Type) : Type := Object { value : num }.
Arguments Object {num} value.
Arguments value {num} o.

Abbreviation heap num := (gmap loc (object num)).

(** A computation over the store of instances. *)
Definition py (num A : Type) : Type := heap num → outcome A * heap num.

#[export] Instance py_ret {num : Type} : MRet (py num) :=
  λ A a h, (Return a, h).

#[export] Instance py_bind {num : Type} : MBind (py num) :=
  λ A B f m h,
    match m h with
    | (Return a, h') => f a h'
    | (Raise e, h') => (Raise e, h')
    | (Stuck, h') => (Stuck, h')
    end.

Definition raise {num A : Type} (e : exception) : py num A :=
  λ h, (Raise e, h).

(** The outcome of an expression that does not touch the store. *)
Definition eval {num A : Type} (r : outcome A) : py num A :=
  λ h, (r, h).

(** [self.value] *)
Definition get_value {num : Type} (self : loc) : py num num :=
  λ h, match h !! self with
       | Some o => (Return (value o), h)
       | None => (Stuck, h)
       end.

(** [self.value = v] *)
Definition set_value {num : Type} (self : loc) (v : num) : py num () :=
  λ h, match h !! self with
       | Some _ => (Return (), <[self := Object v]> h)
       | None => (Stuck, h)
       end.

Module Calculator.
Section methods.
Context {num : Type} `{!Arith num}.
(** How an f-string renders a number ([format(v, "")] of the runtime). *)
Variable format : num → string.
Local Open Scope num_scope.

(** [Calculator(initial_value)]: a new object, then [__init__] on it. *)
Definition __init__ (initial_value : option num) : py num loc :=
  λ h, let self := fresh (dom h) in
       (Return self, <[self := Object (default 0 initial_value)]> h).

Definition add (self : loc) (number : num) : py num loc :=
  v ← get_value self;
  set_value self (v + number);;
  mret self.

Definition subtract (self : loc) (number : num) : py num loc :=
  v ← get_value self;
  set_value self (v - number);;
  mret self.

Definition multiply (self : loc) (number : num) : py num loc :=
  v ← get_value self;
  set_value self (v * number);;
  mret self.

Definition divide (self : loc) (number : num) : py num loc :=
  if number == 0 then raise (ValueError "Cannot divide by zero")
  else
    v ← get_value self;
    q ← eval (truediv v number);
    set_value self q;;
    mret self.

Definition reset (self : loc) : py num loc :=
  set_value self 0;;
  mret self.

Definition __str__ (self : loc) : py num string :=
  v ← get_value self;
  mret ("Calculator(value=" +:+ format v +:+ ")").

Definition __repr__ (self : loc) : py num string :=
  v ← get_value self;
  mret ("Calculator(value=" +:+ format v +:+ ")").
End methods.
End Calculator.

(** The attribute [value] of the instance at [self], if there is one. *)
Definition value_at {num : Type} (self : loc) (h : heap num) : option num :=
  value <$> h !! self.

(** The outcome of a method, set against the outcome [r] of an expression
    over the held value: the method returns its own instance holding the
    value [r] returns, or raises what [r] raises and leaves the store as it
    was. *)
Definition agrees {num : Type} (self : loc) (h : heap num)
    (run : outcome loc * heap num) (r : outcome num) : Prop :=
  match r with
  | Return x => run = (Return self, <[self := Object x]> h)
  | Raise e => run = (Raise e, h)
  | Stuck => False
  end.


(** A store with one instance, holding [v], at reference [1]. *)
Definition single {num : Type} (v : num) : heap num := {[ 1%positive := Object v ]}.

(** The float of sign [s] and magnitude [P], for an integer [0 < P < 2 ^ 53]:
    the mantissa is [P] shifted up to 53 bits. *)
Definition normal_form (s : bool) (P : Z) : float :=
  S754_finite s (Z.to_pos (P * 2 ^ (52 - Z.log2 P))) (Z.log2 P - 52).

(** ** Chains of calls and further notions *)

(** One call of a chain: the method and its argument. *)
Inductive call (num : Type) : Type :=
  | Add (n : num)
  | Subtract (n : num)
  | Multiply (n : num)
  | Divide (n : num)
  | Reset.
Arguments Add {num} n.
Arguments Subtract {num} n.
Arguments Multiply {num} n.
Arguments Divide {num} n.
Arguments Reset {num}.

Section chains.
Context {num : Type} `{!Arith num}.
Local Open Scope num_scope.

(** The call [c] on the instance at [self]. *)
Definition invoke (c : call num) (self : loc) : py num loc :=
  match c with
  | Add n => Calculator.add self n
  | Subtract n => Calculator.subtract self n
  | Multiply n => Calculator.multiply self n
  | Divide n => Calculator.divide self n
  | Reset => Calculator.reset self
  end.

(** [self.c1(..).c2(..)...]: each call is made on what the call before it
    returned. *)
Fixpoint chain (cs : list (call num)) (self : loc) : py num loc :=
  match cs with
  | [] => mret self
  | c :: cs' => r ← invoke c self; chain cs' r
  end.

(** The free function of the same name on the held value [v]; [reset] has
    none and stands for the constant [0.0]. *)
Definition apply_call (c : call num) (v : num) : outcome num :=
  match c with
  | Add n => add v n
  | Subtract n => subtract v n
  | Multiply n => multiply v n
  | Divide n => divide v n
  | Reset => Return 0
  end.

(** The free functions applied one after the other, stopping at the first
    that raises. *)
Fixpoint compose (cs : list (call num)) (v : num) : outcome num :=
  match cs with
  | [] => Return v
  | c :: cs' =>
      match apply_call c v with
      | Return w => compose cs' w
      | Raise e => Raise e
      | Stuck => Stuck
      end
  end.
End chains.

(** The floats the hardware has: a finite one has its mantissa at the
    canonical exponent and is below the overflow threshold. *)
Definition valid (x : float) : bool := valid_binary prec emax x.

(** A store with two instances, at references [1] and [2]. *)
Definition pair_of {num : Type} (v w : num) : heap num :=
  <[2%positive := Object w]> (single v).

(** A normal float: finite, not zero, with a full mantissa of 53 bits.  A
    result that overflowed is an infinity, and one that underflowed is a
    zero or has fewer bits. *)
Definition is_normal (x : float) : bool :=
  match x with
  | S754_finite _ m _ => (Z.pos (digits2_pos m) =? prec)%Z
  | _ => false
  end.

(** The value of a finite float counted in units of [2 ** -1074], the
    smallest positive float: an integer, for every float the hardware has. *)
Definition units (x : float) : Z :=
  match x with
  | S754_finite s m e => cond_Zopp s (Z.pos m * 2 ^ (e + 1074))
  | _ => 0%Z
  end.



(** ** Facts about the store *)

Section store_facts.
Context {num : Type} `{!Arith num}.
Implicit Types (self : loc) (h : heap num) (v n : num).
Local Open Scope num_scope.

Lemma value_at_lookup self h v :
  value_at self h = Some v ↔ h !! self = Some (Object v).
Proof.
  unfold value_at. split.
  - destruct (h !! self) as [[w]|]; simpl; congruence.
  - intros ->. reflexivity.
Qed.

Lemma value_at_insert self h v : value_at self (<[self := Object v]> h) = Some v.
Proof. unfold value_at. by rewrite lookup_insert_eq. Qed.

Lemma value_at_insert_ne self other h v :
  self ≠ other → value_at other (<[self := Object v]> h) = value_at other h.
Proof. intros Hne. unfold value_at. by rewrite lookup_insert_ne. Qed.

Lemma get_value_run self h v :
  value_at self h = Some v → get_value self h = (Return v, h).
Proof. intros Hv%value_at_lookup. unfold get_value. by rewrite Hv. Qed.

Lemma set_value_run self h v w :
  value_at self h = Some v →
  set_value self w h = (Return (), <[self := Object w]> h).
Proof. intros Hv%value_at_lookup. unfold set_value. by rewrite Hv. Qed.

(** A read followed by a write of [f] of what was read. *)
Lemma update_run self h v (f : num → num) :
  value_at self h = Some v →
  (x ← get_value self; set_value self (f x);; mret self) h
  = (Return self, <[self := Object (f v)]> h).
Proof.
  intros Hv. unfold mbind, py_bind.
  rewrite (get_value_run _ _ _ Hv), (set_value_run _ _ _ _ Hv).
  reflexivity.
Qed.

Lemma add_run self h v n :
  value_at self h = Some v →
  Calculator.add self n h = (Return self, <[self := Object (v + n)]> h).
Proof. apply (update_run self h v (λ x, x + n)). Qed.

Lemma subtract_run self h v n :
  value_at self h = Some v →
  Calculator.subtract self n h = (Return self, <[self := Object (v - n)]> h).
Proof. apply (update_run self h v (λ x, x - n)). Qed.

Lemma multiply_run self h v n :
  value_at self h = Some v →
  Calculator.multiply self n h = (Return self, <[self := Object (v * n)]> h).
Proof. apply (update_run self h v (λ x, x * n)). Qed.

Lemma divide_run_zero self h n :
  (n == 0) = true →
  Calculator.divide self n h = (Raise (ValueError "Cannot divide by zero"), h).
Proof. intros Hz. unfold Calculator.divide. by rewrite Hz. Qed.

Lemma divide_run_nonzero self h v n :
  value_at self h = Some v → (n == 0) = false →
  Calculator.divide self n h = (Return self, <[self := Object (num_quot v n)]> h).
Proof.
  intros Hv Hz. unfold Calculator.divide, truediv. rewrite Hz.
  unfold mbind, py_bind, eval.
  rewrite (get_value_run _ _ _ Hv), (set_value_run _ _ _ _ Hv).
  reflexivity.
Qed.

Lemma reset_run self h v :
  value_at self h = Some v →
  Calculator.reset self h = (Return self, <[self := Object 0]> h).
Proof.
  intros Hv. unfold Calculator.reset, mbind, py_bind.
  by rewrite (set_value_run _ _ _ _ Hv).
Qed.

Lemma init_run (initial_value : option num) h :
  ∃ self, h !! self = None ∧
    Calculator.__init__ initial_value h
    = (Return self, <[self := Object (default 0 initial_value)]> h).
Proof.
  exists (fresh (dom h)). split; [|reflexivity].
  apply not_elem_of_dom, is_fresh.
Qed.

Lemma divide_function_zero (a b : num) :
  (b == 0) = true → divide a b = Raise (ValueError "Cannot divide by zero").
Proof. intros Hz. unfold divide. by rewrite Hz. Qed.

Lemma divide_function_nonzero (a b : num) :
  (b == 0) = false → divide a b = Return (num_quot a b).
Proof. intros Hz. unfold divide, truediv. by rewrite Hz. Qed.
End store_facts.

(** ** Facts about chains *)

Section chain_facts.
Context {num : Type} `{!Arith num}.
Implicit Types (self other : loc) (h : heap num) (v w n : num) (c : call num)
  (cs pre post : list (call num)).
Local Open Scope num_scope.

Lemma invoke_returns c self h v w :
  value_at self h = Some v → apply_call c v = Return w →
  invoke c self h = (Return self, <[self := Object w]> h).
Proof.
  intros Hv Hc. destruct c as [n|n|n|n|]; simpl in *.
  - injection Hc as <-. by apply add_run.
  - injection Hc as <-. by apply subtract_run.
  - injection Hc as <-. by apply multiply_run.
  - destruct (n == 0) eqn:Hz.
    + by rewrite (divide_function_zero v n Hz) in Hc.
    + rewrite (divide_function_nonzero v n Hz) in Hc. injection Hc as <-.
      by apply divide_run_nonzero.
  - injection Hc as <-. by apply (reset_run self h v).
Qed.

Lemma invoke_raises c self h v e :
  apply_call c v = Raise e →
  e = ValueError "Cannot divide by zero" ∧ invoke c self h = (Raise e, h).
Proof.
  intros Hc. destruct c as [n|n|n|n|]; simpl in *; try discriminate.
  destruct (n == 0) eqn:Hz.
  - rewrite (divide_function_zero v n Hz) in Hc. injection Hc as <-.
    split; [done|]. by apply divide_run_zero.
  - by rewrite (divide_function_nonzero v n Hz) in Hc.
Qed.

Lemma apply_call_not_stuck c v : apply_call c v ≠ Stuck.
Proof.
  destruct c as [n|n|n|n|]; simpl; try done.
  destruct (n == 0) eqn:Hz.
  - by rewrite (divide_function_zero v n Hz).
  - by rewrite (divide_function_nonzero v n Hz).
Qed.

Lemma chain_app pre post self h :
  chain (pre ++ post) self h = (r ← chain pre self; chain post r) h.
Proof.
  revert self h. induction pre as [|c pre IH]; intros self h; [done|].
  simpl. unfold mbind, py_bind in *.
  destruct (invoke c self h) as [[r| |] h1]; [apply IH|done..].
Qed.

(** A chain whose composition returns [w] returns its instance holding [w]. *)
Lemma chain_returns cs self h v w :
  value_at self h = Some v → compose cs v = Return w →
  ∃ h', chain cs self h = (Return self, h') ∧
        value_at self h' = Some w ∧
        ∀ other, self ≠ other → value_at other h' = value_at other h.
Proof.
  revert h v. induction cs as [|c cs IH]; intros h v Hv Hc; simpl in *.
  - injection Hc as <-. by exists h.
  - destruct (apply_call c v) as [u| |] eqn:Hu; try discriminate.
    destruct (IH (<[self := Object u]> h) u (value_at_insert _ _ _) Hc)
      as (h' & Hrun & Hw & Hframe).
    exists h'. split; [|split; [done|]].
    + unfold mbind, py_bind. by rewrite (invoke_returns c self h v u Hv Hu).
    + intros other Hne. rewrite (Hframe other Hne). by apply value_at_insert_ne.
Qed.

(** A chain whose composition raises stops there: what came before is
    kept, what comes after is not run. *)
Lemma chain_raises pre c post self h v w e :
  value_at self h = Some v → compose pre v = Return w →
  apply_call c w = Raise e →
  ∃ h', chain (pre ++ c :: post) self h = (Raise e, h') ∧
        value_at self h' = Some w ∧
        ∀ other, self ≠ other → value_at other h' = value_at other h.
Proof.
  intros Hv Hpre Hc.
  destruct (chain_returns pre self h v w Hv Hpre) as (h' & Hrun & Hw & Hframe).
  exists h'. split; [|done].
  rewrite chain_app. unfold mbind at 1, py_bind. rewrite Hrun. simpl.
  unfold mbind, py_bind.
  by destruct (invoke_raises c self h' w e Hc) as [_ ->].
Qed.

(** Where a composition raises: at a call with all before it returning. *)
Lemma compose_raises_split cs v e :
  compose cs v = Raise e →
  ∃ pre c post w, cs = pre ++ c :: post ∧ compose pre v = Return w ∧
                  apply_call c w = Raise e.
Proof.
  revert v. induction cs as [|c cs IH]; intros v Hc; simpl in *; [done|].
  destruct (apply_call c v) as [u| |] eqn:Hu; try discriminate.
  - destruct (IH u Hc) as (pre & c' & post & w & -> & Hpre & Hc').
    exists (c :: pre), c', post, w. simpl. by rewrite Hu.
  - injection Hc as <-. by exists [], c, cs, v.
Qed.

Lemma compose_not_stuck cs v : compose cs v ≠ Stuck.
Proof.
  revert v. induction cs as [|c cs IH]; intros v; simpl; [done|].
  destruct (apply_call c v) as [u| |] eqn:Hu; [apply IH|done|].
  by destruct (apply_call_not_stuck c v).
Qed.
End chain_facts.

(** ** Facts about binary64 *)

Section float_facts.
Implicit Types (x y : float) (s : bool) (m : Z) (e : Z).

(** [x == 0] holds of the two zeros and of nothing else. *)
Lemma eq_zero_is_zero x : num_eq x (num_zero : float) = is_zero x.
Proof. destruct x as [[]|[]| |[] ? ?]; reflexivity. Qed.

(** [==] is reflexive away from NaN. *)
Lemma SFeqb_refl x : is_nan x = false → SFeqb x x = true.
Proof.
  unfold SFeqb.
  destruct x as [[]|[]| |[] p e]; simpl; try done; intros _;
    rewrite Z.compare_refl; fold (Pos.compare p p);
    by rewrite Pos.compare_refl.
Qed.

(** Shifting a mantissa to the right keeps it non-negative. *)
Lemma shr_1_nonneg (r : shr_record) : (0 ≤ shr_m r)%Z → (0 ≤ shr_m (shr_1 r))%Z.
Proof. destruct r as [[|[p|p|]|p] b c]; simpl; lia. Qed.

Lemma iter_shr_1_nonneg (n : positive) (r : shr_record) :
  (0 ≤ shr_m r)%Z → (0 ≤ shr_m (iter_pos shr_1 n r))%Z.
Proof.
  revert r. induction n as [n IH|n IH|]; intros r Hr; simpl.
  - apply IH, IH, shr_1_nonneg, Hr.
  - apply IH, IH, Hr.
  - apply shr_1_nonneg, Hr.
Qed.

Lemma shr_record_of_loc_m m (l : location) : shr_m (shr_record_of_loc m l) = m.
Proof. destruct l as [|[]]; reflexivity. Qed.

Lemma shr_fexp_nonneg m e (l : location) :
  (0 ≤ m)%Z → (0 ≤ shr_m (fst (shr_fexp prec emax m e l)))%Z.
Proof.
  intros Hm. unfold shr_fexp, shr.
  destruct (fexp prec emax (Zdigits2 m + e) - e)%Z; simpl;
    [by rewrite shr_record_of_loc_m | | by rewrite shr_record_of_loc_m].
  apply iter_shr_1_nonneg. by rewrite shr_record_of_loc_m.
Qed.

Lemma round_nearest_even_nonneg m (l : location) :
  (0 ≤ m)%Z → (0 ≤ round_nearest_even m l)%Z.
Proof.
  intros Hm. destruct l as [|[]]; simpl; try lia.
  destruct (Z.even m); lia.
Qed.

(** Rounding a non-negative mantissa gives a zero, a finite float or an
    infinity of the given sign, never a NaN. *)
Lemma binary_round_aux_not_nan s m e (l : location) :
  (0 ≤ m)%Z → is_nan (binary_round_aux prec emax s m e l) = false.
Proof.
  intros Hm. unfold binary_round_aux.
  pose proof (shr_fexp_nonneg m e l Hm) as H1.
  destruct (shr_fexp prec emax m e l) as [r1 e1]; simpl in H1.
  pose proof (shr_fexp_nonneg _ e1 loc_Exact
    (round_nearest_even_nonneg _ (loc_of_shr_record r1) H1)) as H2.
  destruct (shr_fexp prec emax _ e1 loc_Exact) as [r2 e2]; simpl in H2.
  destruct (shr_m r2) as [|p|p]; [done| |lia].
  by destruct (e2 <=? emax - prec)%Z.
Qed.

Lemma binary_normalize_not_nan m e s :
  is_nan (binary_normalize prec emax m e s) = false.
Proof.
  destruct m as [|p|p]; simpl; [done| |]; unfold binary_round;
    destruct (shl_align _ _ _) as [mz ez]; by apply binary_round_aux_not_nan.
Qed.

(** The sum and the product of two finite floats are never NaN (they may
    be infinite, on overflow). *)
Lemma SFadd_finite_not_nan x y :
  is_finite x = true → is_finite y = true → is_nan (SFadd prec emax x y) = false.
Proof.
  destruct x as [[]|[]| |sx mx ex], y as [[]|[]| |sy my ey]; simpl; try done.
  intros _ _. apply binary_normalize_not_nan.
Qed.

Lemma SFmul_finite_not_nan x y :
  is_finite x = true → is_finite y = true → is_nan (SFmul prec emax x y) = false.
Proof.
  destruct x as [sx|sx| |sx mx ex], y as [sy|sy| |sy my ey]; simpl; try done.
  intros _ _. by apply binary_round_aux_not_nan.
Qed.

(** Addition and multiplication do not depend on the order of the operands. *)
Lemma SFadd_comm x y : SFadd prec emax x y = SFadd prec emax y x.
Proof.
  destruct x as [[]|[]| |sx mx ex], y as [[]|[]| |sy my ey]; simpl; try done.
  by rewrite (Z.min_comm ex ey), Z.add_comm.
Qed.

Lemma SFmul_comm x y : SFmul prec emax x y = SFmul prec emax y x.
Proof.
  destruct x as [sx|sx| |sx mx ex], y as [sy|sy| |sy my ey]; simpl; try done;
    rewrite ?(xorb_comm sx sy); try done.
  by rewrite (Pos.mul_comm mx my), (Z.add_comm ex ey).
Qed.

(** A finite float minus itself is the positive zero. *)
Lemma SFsub_diag x : is_finite x = true → SFsub prec emax x x = S754_zero false.
Proof.
  destruct x as [[]|[]| |sx mx ex]; simpl; try done.
  intros _. by rewrite Z.sub_diag.
Qed.
(** *** Integers below [2 ** 53]

    Sums, products and even quotients of such integers are computed without
    rounding: the result has at most 53 significant bits, so the bits shifted
    out by the rounding are all zero. *)

Local Open Scope Z_scope.

Lemma digits2_pos_log2 (p : positive) : Zpos (digits2_pos p) = Z.log2 (Zpos p) + 1.
Proof.
  assert (Hsize : ∀ q, digits2_pos q = Pos.size q).
  { induction q as [q IH|q IH|]; simpl; by rewrite ?IH. }
  destruct p as [p|p|]; simpl; rewrite ?Hsize; lia.
Qed.

Lemma Zdigits2_log2 (m : Z) : 0 < m → Zdigits2 m = Z.log2 m + 1.
Proof. destruct m as [|p|p]; try lia. intros _. apply digits2_pos_log2. Qed.

Lemma fexp_normal (d : Z) : -1021 ≤ d → fexp prec emax d = d - 53.
Proof. unfold fexp, SpecFloat.emin, prec, emax. lia. Qed.

(** Shifting out [n] zero bits leaves the mantissa with nothing to round. *)
Lemma iter_shr_1_exact (n : positive) (m : Z) :
  0 ≤ m →
  iter_pos shr_1 n (Build_shr_record (m * 2 ^ Zpos n) false false)
  = Build_shr_record m false false.
Proof.
  assert (Hstep : ∀ t : Z, 0 ≤ t →
    shr_1 (Build_shr_record (t * 2) false false) = Build_shr_record t false false).
  { intros [|p|p] Ht; try lia; [done|]. by rewrite Z.mul_comm. }
  revert m. induction n as [n IH|n IH|]; intros m Hm; cbn [iter_pos].
  - replace (m * 2 ^ Z.pos n~1) with (m * 2 ^ Z.pos n * 2 ^ Z.pos n * 2).
    + rewrite Hstep, IH, IH; [done|lia..].
    + rewrite (Pos2Z.inj_xI n).
      replace (2 * Z.pos n + 1) with (Z.pos n + Z.pos n + 1) by lia.
      rewrite !Z.pow_add_r, Z.pow_1_r by lia. ring.
  - replace (m * 2 ^ Z.pos n~0) with (m * 2 ^ Z.pos n * 2 ^ Z.pos n).
    + rewrite IH, IH; [done|lia..].
    + rewrite (Pos2Z.inj_xO n).
      replace (2 * Z.pos n) with (Z.pos n + Z.pos n) by lia.
      rewrite Z.pow_add_r by lia. ring.
  - by rewrite Z.pow_1_r, Hstep.
Qed.

(** A mantissa of exactly 53 bits followed by [n] zero bits rounds to
    itself. *)
Lemma binary_round_aux_exact (s : bool) (M n e : Z) :
  2 ^ 52 ≤ M < 2 ^ 53 → 0 ≤ n → -1074 ≤ e + n ≤ 971 →
  binary_round_aux prec emax s (M * 2 ^ n) e loc_Exact
  = S754_finite s (Z.to_pos M) (e + n).
Proof.
  intros HM Hn He.
  assert (Hlog : Z.log2 M = 52).
  { apply Z.log2_unique; lia. }
  assert (Hpow : 0 < 2 ^ n) by (apply Z.pow_pos_nonneg; lia).
  unfold binary_round_aux, shr_fexp.
  rewrite Zdigits2_log2, Z.log2_mul_pow2, Hlog by nia.
  rewrite fexp_normal by lia.
  replace (n + 52 + 1 + e - 53 - e) with n by lia.
  assert (Hshr : shr (shr_record_of_loc (M * 2 ^ n) loc_Exact) e n
                 = (Build_shr_record M false false, e + n)).
  { unfold shr, shr_record_of_loc. destruct n as [|p|p]; [|by rewrite iter_shr_1_exact by lia|lia].
    simpl. by rewrite Z.mul_1_r, Z.add_0_r. }
  rewrite Hshr. cbn [shr_m loc_of_shr_record round_nearest_even].
  rewrite Zdigits2_log2, Hlog by lia.
  rewrite fexp_normal by lia.
  replace (52 + 1 + (e + n) - 53 - (e + n)) with 0 by lia.
  cbn [shr shr_record_of_loc shr_m].
  destruct M as [|p|p]; try lia.
  replace (e + n <=? emax - prec) with true; [done|].
  symmetry. apply Z.leb_le. unfold emax, prec. lia.
Qed.

Lemma log2_range (P : Z) : 0 < P < 2 ^ 53 → 0 ≤ Z.log2 P ≤ 52.
Proof.
  intros HP. split; [apply Z.log2_nonneg|].
  apply Z.lt_succ_r, Z.log2_lt_pow2; lia.
Qed.

Lemma normal_mantissa (P : Z) :
  0 < P < 2 ^ 53 → 2 ^ 52 ≤ P * 2 ^ (52 - Z.log2 P) < 2 ^ 53.
Proof.
  intros HP. pose proof (log2_range P HP) as Hl.
  destruct (Z.log2_spec P) as [Hlo Hhi]; [lia|].
  assert (H52 : 2 ^ 52 = 2 ^ Z.log2 P * 2 ^ (52 - Z.log2 P)).
  { rewrite <- Z.pow_add_r by lia. f_equal. lia. }
  assert (Hpos : 0 < 2 ^ (52 - Z.log2 P)) by (apply Z.pow_pos_nonneg; lia).
  rewrite Z.pow_succ_r in Hhi by lia.
  replace (2 ^ 53) with (2 * 2 ^ 52) by reflexivity.
  rewrite H52. nia.
Qed.

Lemma binary_round_aux_scaled (s : bool) (P k : Z) :
  0 < P < 2 ^ 53 → 0 ≤ k → 2 ^ 52 ≤ P * 2 ^ k →
  binary_round_aux prec emax s (P * 2 ^ k) (- k) loc_Exact = normal_form s P.
Proof.
  intros HP Hk Hbig. pose proof (log2_range P HP) as Hl.
  assert (Hn : 52 - Z.log2 P ≤ k).
  { destruct (Z.log2_spec P) as [_ Hhi]; [lia|].
    assert (Hlt : 2 ^ 52 < 2 ^ (Z.succ (Z.log2 P) + k)).
    { rewrite Z.pow_add_r by lia.
      assert (0 < 2 ^ k) by (apply Z.pow_pos_nonneg; lia). nia. }
    apply Z.pow_lt_mono_r_iff in Hlt; lia. }
  replace (P * 2 ^ k) with (P * 2 ^ (52 - Z.log2 P) * 2 ^ (k - (52 - Z.log2 P))).
  - rewrite binary_round_aux_exact; [|by apply normal_mantissa|lia|lia].
    unfold normal_form. f_equal. lia.
  - rewrite <- Z.mul_assoc, <- Z.pow_add_r by lia. do 2 f_equal. lia.
Qed.

Lemma shift_pos_value (q d : positive) : Zpos (Pos.iter xO q d) = Zpos q * 2 ^ Zpos d.
Proof.
  change (Pos.iter xO q d) with (shift_pos d q).
  rewrite shift_pos_correct. change (Zpower_pos 2 d) with (2 ^ Zpos d). lia.
Qed.

Lemma scaled_mantissa_big (P k : Z) :
  0 < P < 2 ^ 53 → 52 - Z.log2 P ≤ k → 2 ^ 52 ≤ P * 2 ^ k.
Proof.
  intros HP Hk. pose proof (log2_range P HP) as Hl.
  pose proof (normal_mantissa P HP) as HM.
  replace k with (52 - Z.log2 P + (k - (52 - Z.log2 P))) by lia.
  rewrite Z.pow_add_r, Z.mul_assoc by lia.
  assert (0 < 2 ^ (k - (52 - Z.log2 P))) by (apply Z.pow_pos_nonneg; lia).
  nia.
Qed.

(** Rounding [P * 2 ^ k] held at exponent [- k] gives the float of magnitude
    [P], whatever the scaling [k]. *)
Lemma binary_round_scaled (s : bool) (q : positive) (P k : Z) :
  0 < P < 2 ^ 53 → 0 ≤ k → Zpos q = P * 2 ^ k →
  binary_round prec emax s q (- k) = normal_form s P.
Proof.
  intros HP Hk Hq. pose proof (log2_range P HP) as Hl.
  unfold binary_round, shl_align.
  rewrite digits2_pos_log2, Hq, Z.log2_mul_pow2 by lia.
  rewrite fexp_normal by lia.
  replace (k + Z.log2 P + 1 + - k - 53 - - k) with (Z.log2 P - 52 + k) by lia.
  destruct (Z.log2 P - 52 + k) as [|d|d] eqn:Hd.
  - rewrite Hq. apply binary_round_aux_scaled; [done..|].
    apply scaled_mantissa_big; lia.
  - rewrite Hq. apply binary_round_aux_scaled; [done..|].
    apply scaled_mantissa_big; lia.
  - rewrite shift_pos_value, Hq, <- Z.mul_assoc, <- Z.pow_add_r by lia.
    replace (k + Z.pos d) with (52 - Z.log2 P) by lia.
    replace (k + Z.log2 P + 1 + - k - 53) with (- (52 - Z.log2 P)) by lia.
    apply binary_round_aux_scaled; [done|lia|].
    apply scaled_mantissa_big; lia.
Qed.


(** The shape of [float(z)] for a non-zero integer below [2 ** 53]. *)
Lemma float_of_Z_normal (z : Z) :
  z ≠ 0 → Z.abs z < 2 ^ 53 →
  float_of_Z z = normal_form (z <? 0) (Z.abs z).
Proof.
  intros Hz Hlt. unfold float_of_Z.
  destruct z as [|p|p]; [done| |]; cbn [binary_normalize].
  - change (binary_round prec emax false p 0) with (binary_round prec emax false p (- 0)).
    rewrite (binary_round_scaled false p (Z.pos p) 0); [done|simpl in *; lia..].
  - change (binary_round prec emax true p 0) with (binary_round prec emax true p (- 0)).
    rewrite (binary_round_scaled true p (Z.pos p) 0); [done|simpl in *; lia..].
Qed.



Lemma normal_form_value (z : Z) :
  z ≠ 0 → Z.abs z < 2 ^ 53 →
  Zpos (Z.to_pos (Z.abs z * 2 ^ (52 - Z.log2 (Z.abs z))))
  = Z.abs z * 2 ^ (52 - Z.log2 (Z.abs z)).
Proof.
  intros Hz Hlt. apply Z2Pos.id.
  pose proof (normal_mantissa (Z.abs z)). lia.
Qed.


Lemma sign_of_product (z w : Z) :
  z ≠ 0 → w ≠ 0 → (z * w <? 0) = xorb (z <? 0) (w <? 0).
Proof.
  intros Hz Hw.
  destruct (Z.ltb_spec z 0), (Z.ltb_spec w 0), (Z.ltb_spec (z * w) 0);
    simpl; try done; nia.
Qed.

(** Products of non-zero integers are exact while they stay below
    [2 ** 53]. *)
Lemma float_of_Z_mul (z w : Z) :
  z ≠ 0 → w ≠ 0 → Z.abs (z * w) < 2 ^ 53 →
  SFmul prec emax (float_of_Z z) (float_of_Z w) = float_of_Z (z * w).
Proof.
  intros Hz0 Hw0 Hzw.
  assert (Hz : Z.abs z < 2 ^ 53) by nia.
  assert (Hw : Z.abs w < 2 ^ 53) by nia.
  rewrite (float_of_Z_normal z), (float_of_Z_normal w), (float_of_Z_normal (z * w))
    by (done || nia).
  pose proof (log2_range (Z.abs z) ltac:(lia)) as Hlz.
  pose proof (log2_range (Z.abs w) ltac:(lia)) as Hlw.
  pose proof (normal_mantissa (Z.abs z) ltac:(lia)) as HMz.
  pose proof (normal_mantissa (Z.abs w) ltac:(lia)) as HMw.
  rewrite sign_of_product by done.
  unfold normal_form at 1 2. cbn [SFmul].
  rewrite Pos2Z.inj_mul, !normal_form_value by done.
  set (k := (52 - Z.log2 (Z.abs z)) + (52 - Z.log2 (Z.abs w))).
  replace (Z.log2 (Z.abs z) - 52 + (Z.log2 (Z.abs w) - 52)) with (- k) by lia.
  assert (Hprod : Z.abs z * 2 ^ (52 - Z.log2 (Z.abs z))
                  * (Z.abs w * 2 ^ (52 - Z.log2 (Z.abs w)))
                  = Z.abs (z * w) * 2 ^ k).
  { unfold k. rewrite Z.pow_add_r, Z.abs_mul by lia. ring. }
  rewrite Hprod. apply binary_round_aux_scaled; [lia|lia|].
  rewrite <- Hprod. change (2 ^ 52) with (1 * 2 ^ 52). nia.
Qed.

Lemma div_eucl_exact (q m : Z) : 0 < m → Z.div_eucl (q * m) m = (q, 0).
Proof.
  intros Hm.
  pose proof (Z.div_mul q m ltac:(lia)) as Hdiv.
  pose proof (Z.mod_mul q m ltac:(lia)) as Hmod.
  unfold Z.div, Z.modulo in Hdiv, Hmod.
  destruct (Z.div_eucl (q * m) m) as [q' r']. simpl in *. congruence.
Qed.

(** A quotient of integers that divides evenly is exact. *)
Lemma float_of_Z_div (q b : Z) :
  q ≠ 0 → b ≠ 0 → Z.abs (q * b) < 2 ^ 53 →
  SFdiv prec emax (float_of_Z (q * b)) (float_of_Z b) = float_of_Z q.
Proof.
  intros Hq0 Hb0 Hqb.
  assert (Hq : Z.abs q < 2 ^ 53) by nia.
  assert (Hb : Z.abs b < 2 ^ 53) by nia.
  rewrite (float_of_Z_normal (q * b)), (float_of_Z_normal b), (float_of_Z_normal q)
    by (done || nia).
  pose proof (log2_range (Z.abs (q * b)) ltac:(lia)) as Hla.
  pose proof (log2_range (Z.abs b) ltac:(lia)) as Hlb.
  pose proof (normal_mantissa (Z.abs (q * b)) ltac:(lia)) as HMa.
  pose proof (normal_mantissa (Z.abs b) ltac:(lia)) as HMb.
  rewrite sign_of_product by done.
  assert (Hsign : xorb (xorb (q <? 0) (b <? 0)) (b <? 0) = (q <? 0)).
  { by destruct (q <? 0), (b <? 0). }
  unfold normal_form at 1 2. cbn [SFdiv]. rewrite Hsign.
  unfold SFdiv_core_binary.
  rewrite !Zdigits2_log2, !normal_form_value by (done || lia || nia).
  set (Ma := Z.abs (q * b) * 2 ^ (52 - Z.log2 (Z.abs (q * b)))) in *.
  set (Mb := Z.abs b * 2 ^ (52 - Z.log2 (Z.abs b))) in *.
  set (ea := Z.log2 (Z.abs (q * b)) - 52). set (eb := Z.log2 (Z.abs b) - 52).
  assert (HlMa : Z.log2 Ma = 52) by (apply Z.log2_unique; lia).
  assert (HlMb : Z.log2 Mb = 52) by (apply Z.log2_unique; lia).
  rewrite HlMa, HlMb, fexp_normal by lia.
  replace (52 + 1 + ea - (52 + 1 + eb) - 53) with (ea - eb - 53) by lia.
  rewrite Z.min_l by lia.
  replace (ea - eb - (ea - eb - 53)) with 53 by lia.
  cbv iota. rewrite Z.shiftl_mul_pow2 by lia.
  set (k := eb - ea + 53).
  assert (Hquot : Ma * 2 ^ 53 = Z.abs q * 2 ^ k * Mb).
  { unfold Ma, Mb, k, ea, eb. rewrite Z.abs_mul.
    replace (Z.abs q * Z.abs b * 2 ^ (52 - Z.log2 (Z.abs q * Z.abs b)) * 2 ^ 53)
      with (Z.abs q * Z.abs b * (2 ^ (52 - Z.log2 (Z.abs q * Z.abs b)) * 2 ^ 53)) by ring.
    rewrite Z.abs_mul in Hla.
    rewrite <- Z.pow_add_r by lia.
    replace (Z.abs q * 2 ^ (Z.log2 (Z.abs b) - 52 - (Z.log2 (Z.abs q * Z.abs b) - 52) + 53)
             * (Z.abs b * 2 ^ (52 - Z.log2 (Z.abs b))))
      with (Z.abs q * Z.abs b
            * (2 ^ (Z.log2 (Z.abs b) - 52 - (Z.log2 (Z.abs q * Z.abs b) - 52) + 53)
               * 2 ^ (52 - Z.log2 (Z.abs b)))) by ring.
    rewrite <- Z.pow_add_r by lia. do 2 f_equal. lia. }
  rewrite Hquot, div_eucl_exact by lia.
  assert (Hloc : new_location Mb 0 = loc_Exact).
  { unfold new_location, new_location_even, new_location_odd.
    by destruct (Z.even Mb). }
  rewrite Hloc.
  replace (ea - eb - 53) with (- k) by (unfold k; lia).
  apply binary_round_aux_scaled; [lia|unfold k; lia|].
  assert (2 ^ 52 * Mb ≤ Z.abs q * 2 ^ k * Mb); [|nia].
  rewrite <- Hquot. nia.
Qed.
End float_facts.

(** *** Special values, neutral operands, differences *)

Section more_float_facts.
Implicit Types (x y : float) (s : bool).
Local Open Scope Z_scope.

Lemma SFsub_finite_not_nan x y :
  is_finite x = true → is_finite y = true → is_nan (SFsub prec emax x y) = false.
Proof.
  destruct x as [[]|[]| |sx mx ex], y as [[]|[]| |sy my ey]; simpl; try done.
  intros _ _. apply binary_normalize_not_nan.
Qed.

Lemma SFdiv_finite_not_nan x y :
  is_finite x = true → is_finite y = true → is_zero y = false →
  is_nan (SFdiv prec emax x y) = false.
Proof.
  destruct x as [sx|sx| |sx mx ex], y as [sy|sy| |sy my ey]; simpl; try done.
  intros _ _ _. unfold SFdiv_core_binary.
  set (k := _ - _ - Z.min _ _).
  set (m' := match k with 0 => Z.pos mx | Z.pos _ => Z.shiftl (Z.pos mx) k | Z.neg _ => 0 end).
  assert (Hm' : 0 ≤ m').
  { unfold m'. destruct k; try lia. apply Z.shiftl_nonneg. lia. }
  pose proof (Z_div_nonneg_nonneg m' (Z.pos my) Hm' ltac:(lia)) as Hq.
  unfold Z.div in Hq.
  destruct (Z.div_eucl m' (Z.pos my)) as [q r]. simpl in Hq.
  by apply binary_round_aux_not_nan.
Qed.





End more_float_facts.

(** *** The error of one rounding *)

Section rounding_error.
Implicit Types (s : bool) (l : location) (r : shr_record).
Local Open Scope Z_scope.









Lemma fexp_self_le (e : Z) : -1074 ≤ e → fexp prec emax e ≤ e.
Proof. unfold fexp, SpecFloat.emin, prec, emax. lia. Qed.


End rounding_error.

(** *** The error of a quotient and of a product *)

Section division_error.
Implicit Types (s : bool).
Local Open Scope Z_scope.





End division_error.

(** ** The free functions *)

Local Open Scope num_scope.

(** The literals used below, as the values they denote. *)
Example float_literals :
  float_of_Z 1 = S754_finite false 4503599627370496 (-52) ∧
  float_of_Z 10 = S754_finite false 5629499534213120 (-49) ∧
  float_of_Z 30 = S754_finite false 8444249301319680 (-48) ∧
  float_of_scaled 1 (-1) = S754_finite false 4503599627370496 (-53) ∧
  float_of_scaled 1 (-1074) = S754_finite false 1 (-1074).
Proof. repeat split. Qed.

(** C1. [divide(a, b)] raises [ValueError("Cannot divide by zero")] exactly
    when [b == 0], which holds of [0.0] and [-0.0] and of no other float
    (however small, and not of NaN); for every other [b] it returns the
    quotient [a / b], and the [ZeroDivisionError] of [/] is never reached.
    The function is a function of its two arguments alone: evaluated in any
    store, it leaves the store as it was. *)
Theorem divide_raises_iff_zero (a b : float) :
  (divide a b = Raise (ValueError "Cannot divide by zero") ↔ (b == 0) = true) ∧
  ((b == 0) = true ↔ b = S754_zero false ∨ b = S754_zero true) ∧
  ((b == 0) = false → divide a b = Return (SFdiv prec emax a b)) ∧
  (∀ h : heap float, eval (divide a b) h = (divide a b, h)).
Proof.
  split; [|split; [|split]].
  - split; [|apply divide_function_zero].
    destruct (b == 0) eqn:Hz; [done|].
    by rewrite (divide_function_nonzero a b Hz).
  - rewrite eq_zero_is_zero.
    destruct b as [[]|[]| |[] ? ?]; simpl; split; try done; eauto; by intros [|].
  - exact (divide_function_nonzero a b).
  - done.
Qed.

(** The zero test is exact: the smallest positive float is a divisor like
    any other, and so is NaN; the negative zero is a zero. *)
Example divide_near_zero :
  divide (float_of_Z 1) (float_of_scaled 1 (-1074)) = Return (S754_infinity false) ∧
  divide (float_of_Z 1) S754_nan = Return S754_nan ∧
  divide (float_of_Z 1) (S754_zero true) = Raise (ValueError "Cannot divide by zero").
Proof. repeat split. Qed.

(** C4. [add(a, b)], [subtract(a, b)] and [multiply(a, b)] return [a + b],
    [a - b] and [a * b] for every pair of operands, over any arithmetic and
    so over binary64 with its infinities and NaN: none of them raises. *)
Theorem functions_return_arithmetic {num : Type} `{!Arith num} (a b : num) :
  add a b = Return (a + b) ∧
  subtract a b = Return (a - b) ∧
  multiply a b = Return (a * b).
Proof. by repeat split. Qed.

(** At binary64 the three results are the IEEE 754 sum, difference and
    product. *)
Example functions_binary64 (a b : float) :
  add a b = Return (SFadd prec emax a b) ∧
  subtract a b = Return (SFsub prec emax a b) ∧
  multiply a b = Return (SFmul prec emax a b).
Proof. by repeat split. Qed.

(** C8. For finite floats [a] and [b], [add(a, b) == add(b, a)] and
    [multiply(a, b) == multiply(b, a)], also when the result overflows to an
    infinity, and [subtract(a, a) == 0]. *)
Theorem add_multiply_commute_subtract_self (a b : float) :
  is_finite a = true → is_finite b = true →
  (∃ x y, add a b = Return x ∧ add b a = Return y ∧ (x == y) = true) ∧
  (∃ x y, multiply a b = Return x ∧ multiply b a = Return y ∧ (x == y) = true) ∧
  (∃ z, subtract a a = Return z ∧ (z == 0) = true).
Proof.
  intros Ha Hb. repeat split.
  - exists (SFadd prec emax a b), (SFadd prec emax b a). repeat split.
    simpl. rewrite (SFadd_comm b a). by apply SFeqb_refl, SFadd_finite_not_nan.
  - exists (SFmul prec emax a b), (SFmul prec emax b a). repeat split.
    simpl. rewrite (SFmul_comm b a). by apply SFeqb_refl, SFmul_finite_not_nan.
  - exists (SFsub prec emax a a). split; [done|].
    simpl. by rewrite SFsub_diag.
Qed.

Lemma add_multiply_commute_subtract_self_witness :
  (∃ x y, add (float_of_Z 3) (float_of_scaled 1 (-1)) = Return x ∧
          add (float_of_scaled 1 (-1)) (float_of_Z 3) = Return y ∧ (x == y) = true) ∧
  (∃ x y, multiply (float_of_Z 3) (float_of_scaled 1 (-1)) = Return x ∧
          multiply (float_of_scaled 1 (-1)) (float_of_Z 3) = Return y ∧ (x == y) = true) ∧
  (∃ z, subtract (float_of_Z 3) (float_of_Z 3) = Return z ∧ (z == 0) = true).
Proof.
  apply (add_multiply_commute_subtract_self (float_of_Z 3) (float_of_scaled 1 (-1)));
    reflexivity.
Defined.

(** Without finiteness the three equations fail: an infinity minus itself is
    NaN, which equals nothing. *)
Example subtract_self_infinite :
  subtract (S754_infinity false) (S754_infinity false) = Return S754_nan ∧
  ((S754_nan : float) == 0) = false.
Proof. by split. Qed.

(** ** The methods of [Calculator] *)

(** C5. On an instance holding [v], [add(n)], [subtract(n)] and
    [multiply(n)] return (the instance itself) for every [v] and [n], and
    leave it holding [v + n], [v - n] and [v * n]; no other instance in the
    store changes. *)
Theorem add_subtract_multiply_succeed {num : Type} `{!Arith num}
    (self : loc) (h : heap num) (v n : num) :
  value_at self h = Some v →
  (Calculator.add self n h = (Return self, <[self := Object (v + n)]> h) ∧
   value_at self (<[self := Object (v + n)]> h) = Some (v + n)) ∧
  (Calculator.subtract self n h = (Return self, <[self := Object (v - n)]> h) ∧
   value_at self (<[self := Object (v - n)]> h) = Some (v - n)) ∧
  (Calculator.multiply self n h = (Return self, <[self := Object (v * n)]> h) ∧
   value_at self (<[self := Object (v * n)]> h) = Some (v * n)) ∧
  (∀ other : loc, self ≠ other →
     value_at other (snd (Calculator.add self n h)) = value_at other h ∧
     value_at other (snd (Calculator.subtract self n h)) = value_at other h ∧
     value_at other (snd (Calculator.multiply self n h)) = value_at other h).
Proof.
  intros Hv.
  rewrite (add_run self h v n Hv), (subtract_run self h v n Hv),
    (multiply_run self h v n Hv).
  repeat split; try apply value_at_insert; by apply value_at_insert_ne.
Qed.

Lemma add_subtract_multiply_succeed_witness :
  value_at 1%positive (single (float_of_Z 10)) = Some (float_of_Z 10) ∧
  fst (Calculator.add 1%positive (float_of_Z 5) (single (float_of_Z 10)))
    = Return 1%positive ∧
  value_at 1%positive
    (snd (Calculator.multiply 1%positive (float_of_Z 5) (single (float_of_Z 10))))
    = Some (float_of_Z 50).
Proof.
  destruct (add_subtract_multiply_succeed 1%positive (single (float_of_Z 10))
              (float_of_Z 10) (float_of_Z 5) eq_refl)
    as [[Ha _] [_ [[Hm Hm'] _]]].
  split; [reflexivity|]. split.
  - rewrite Ha. reflexivity.
  - rewrite Hm. exact Hm'.
Defined.

(** C2. On an instance holding [v], [divide(n)] with [n == 0] raises
    [ValueError("Cannot divide by zero")] and the store, so the held value,
    is as it was before the call; with [n != 0] it returns the instance,
    which then holds [v / n]. *)
Theorem divide_method_atomic {num : Type} `{!Arith num}
    (self : loc) (h : heap num) (v n : num) :
  value_at self h = Some v →
  ((n == 0) = true →
     Calculator.divide self n h = (Raise (ValueError "Cannot divide by zero"), h) ∧
     value_at self (snd (Calculator.divide self n h)) = Some v) ∧
  ((n == 0) = false →
     Calculator.divide self n h = (Return self, <[self := Object (num_quot v n)]> h) ∧
     value_at self (snd (Calculator.divide self n h)) = Some (num_quot v n)).
Proof.
  intros Hv. split; intros Hz.
  - rewrite (divide_run_zero self h n Hz). by split.
  - rewrite (divide_run_nonzero self h v n Hv Hz). split; [done|].
    apply value_at_insert.
Qed.

Lemma divide_method_atomic_witness :
  value_at 1%positive (single (float_of_Z 10)) = Some (float_of_Z 10) ∧
  Calculator.divide 1%positive (float_of_Z 0) (single (float_of_Z 10))
    = (Raise (ValueError "Cannot divide by zero"), single (float_of_Z 10)) ∧
  value_at 1%positive
    (snd (Calculator.divide 1%positive (float_of_Z 4) (single (float_of_Z 10))))
    = Some (float_of_scaled 5 (-1)).
Proof.
  split; [reflexivity|]. split.
  - destruct (divide_method_atomic 1%positive (single (float_of_Z 10))
                (float_of_Z 10) (float_of_Z 0) eq_refl) as [Hzero _].
    apply Hzero. reflexivity.
  - destruct (divide_method_atomic 1%positive (single (float_of_Z 10))
                (float_of_Z 10) (float_of_Z 4) eq_refl) as [_ Hnonzero].
    destruct (Hnonzero eq_refl) as [_ Hvalue]. rewrite Hvalue. reflexivity.
Defined.

(** C6. [reset()] on an instance returns that instance and leaves it holding
    [0.0], whatever it held before; [Calculator(5).reset().value] is [0.0]. *)
Theorem reset_sets_zero :
  (∀ (num : Type) (A : Arith num) (self : loc) (h : heap num) (v : num),
     value_at self h = Some v →
     Calculator.reset self h = (Return self, <[self := Object 0]> h) ∧
     value_at self (snd (Calculator.reset self h)) = Some 0) ∧
  (∀ h : heap float, ∃ c h',
     (c ← Calculator.__init__ (Some (float_of_Z 5)); Calculator.reset c) h
       = (Return c, h') ∧
     h !! c = None ∧
     value_at c h' = Some (S754_zero false)).
Proof.
  split.
  - intros num A self h v Hv. rewrite (reset_run self h v Hv). split; [done|].
    apply value_at_insert.
  - intros h. destruct (init_run (Some (float_of_Z 5)) h) as (c & Hc & Hrun).
    exists c, (<[c := Object 0]> (<[c := Object (float_of_Z 5)]> h)).
    split; [|split; [done|apply value_at_insert]].
    unfold mbind, py_bind. rewrite Hrun.
    apply (reset_run c _ (float_of_Z 5)), value_at_insert.
Qed.

(** C10. On an instance holding [v], each method does what the free function
    of the same name does to [v] and [n]: it raises the very exception the
    function raises, leaving the store as it was, and otherwise returns the
    instance holding the value the function returns.  For [divide] both
    raise [ValueError("Cannot divide by zero")] exactly when [n == 0]. *)
Theorem methods_agree_with_functions {num : Type} `{!Arith num}
    (self : loc) (h : heap num) (v n : num) :
  value_at self h = Some v →
  agrees self h (Calculator.add self n h) (add v n) ∧
  agrees self h (Calculator.subtract self n h) (subtract v n) ∧
  agrees self h (Calculator.multiply self n h) (multiply v n) ∧
  agrees self h (Calculator.divide self n h) (divide v n) ∧
  (raises (fst (Calculator.divide self n h)) = raises (divide v n) ∧
   raises (divide v n) = (n == 0)).
Proof.
  intros Hv. repeat split.
  - by apply add_run.
  - by apply subtract_run.
  - by apply multiply_run.
  - destruct (n == 0) eqn:Hz.
    + rewrite (divide_function_zero v n Hz). by apply divide_run_zero.
    + rewrite (divide_function_nonzero v n Hz). by apply divide_run_nonzero.
  - destruct (n == 0) eqn:Hz.
    + by rewrite (divide_function_zero v n Hz), (divide_run_zero self h n Hz).
    + by rewrite (divide_function_nonzero v n Hz),
        (divide_run_nonzero self h v n Hv Hz).
  - destruct (n == 0) eqn:Hz.
    + by rewrite (divide_function_zero v n Hz).
    + by rewrite (divide_function_nonzero v n Hz).
Qed.

Lemma methods_agree_with_functions_witness :
  value_at 1%positive (single (float_of_Z 10)) = Some (float_of_Z 10) ∧
  agrees 1%positive (single (float_of_Z 10))
    (Calculator.divide 1%positive (S754_zero true) (single (float_of_Z 10)))
    (divide (float_of_Z 10) (S754_zero true)) ∧
  agrees 1%positive (single (float_of_Z 10))
    (Calculator.divide 1%positive (float_of_Z 4) (single (float_of_Z 10)))
    (divide (float_of_Z 10) (float_of_Z 4)).
Proof.
  split; [reflexivity|]. split.
  - apply (methods_agree_with_functions 1%positive (single (float_of_Z 10))
             (float_of_Z 10) (S754_zero true) eq_refl).
  - apply (methods_agree_with_functions 1%positive (single (float_of_Z 10))
             (float_of_Z 10) (float_of_Z 4) eq_refl).
Defined.

(** ** The string form *)

(** C9, as the source has it.  [str] and [repr] of an instance holding [v]
    are both the text [Calculator(value=] followed by the rendering of [v] and
    a closing parenthesis: the label of the class, not the word
    [Accumulator], and nothing of the instance but the held value.  The call
    leaves the store as it was. *)
Theorem str_is_label_and_value {num : Type} `{!Arith num}
    (format : num → string) (self : loc) (h : heap num) (v : num) :
  value_at self h = Some v →
  Calculator.__str__ format self h
    = (Return ("Calculator(value=" +:+ format v +:+ ")"), h) ∧
  Calculator.__repr__ format self h
    = (Return ("Calculator(value=" +:+ format v +:+ ")"), h).
Proof.
  intros Hv.
  unfold Calculator.__str__, Calculator.__repr__, mbind, py_bind.
  by rewrite (get_value_run self h v Hv).
Qed.

Lemma str_is_label_and_value_witness :
  value_at 1%positive (single (float_of_Z 10)) = Some (float_of_Z 10) ∧
  Calculator.__str__ (λ _ : float, "10.0") 1%positive (single (float_of_Z 10))
    = (Return "Calculator(value=10.0)", single (float_of_Z 10)).
Proof.
  split; [reflexivity|].
  apply (str_is_label_and_value (λ _ : float, "10.0") 1%positive
           (single (float_of_Z 10)) (float_of_Z 10) eq_refl).
Defined.

(** C9 as the claim words it fails: the text does not start with
    [Accumulator]. *)
Lemma str_label_counterexample :
  ¬ (∀ (format : float → string) (self : loc) (h : heap float) (v : float),
       value_at self h = Some v →
       Calculator.__str__ format self h
         = (Return ("Accumulator(value=" +:+ format v +:+ ")"), h)).
Proof.
  intros Hall.
  specialize (Hall (λ _, "10.0") 1%positive (single (float_of_Z 10))
                (float_of_Z 10) eq_refl).
  discriminate Hall.
Qed.

(** ** Chained calls *)





(** The run behind the counterexample. *)
Example two_adds_at_2_53 :
  value_at 1%positive
    (snd ((Calculator.add 1%positive (float_of_Z 1);;
           Calculator.add 1%positive (float_of_Z 1)) (single (float_of_Z (2 ^ 53)))))
  = Some (float_of_Z (2 ^ 53)).
Proof. reflexivity. Qed.

(** ** Dividing and multiplying back *)

(** Where the arithmetic is exact.  Over the rationals, for every [a]
    and every [b] that is not zero, [divide(a, b)] returns and [multiply] of
    its result by [b] returns [a] itself.  Over binary64 the same holds, up
    to [==], whenever [a] and [b] are integers below [2 ** 53] in magnitude
    and [a] is a multiple of [b], with [b] not zero: the quotient and the
    product are then computed without rounding. *)
Theorem divide_multiply_back_when_exact :
  (∀ a b : Qc, b ≠ Q2Qc 0 →
     ∃ x, divide a b = Return x ∧ multiply x b = Return a) ∧
  (∀ q b : Z, b ≠ 0%Z → (Z.abs b < 2 ^ 53)%Z → (Z.abs (q * b) < 2 ^ 53)%Z →
     ∃ x p, divide (float_of_Z (q * b)) (float_of_Z b) = Return x ∧
            multiply x (float_of_Z b) = Return p ∧
            (p == float_of_Z (q * b)) = true).
Proof.
  split.
  - intros a b Hb. exists (a / b)%Qc. split.
    + rewrite (divide_function_nonzero a b); [reflexivity|].
      simpl. by apply bool_decide_eq_false.
    + unfold multiply. simpl. f_equal. unfold Qcdiv.
      by rewrite <- Qcmult_assoc, (Qcmult_comm (/ b)%Qc b), Qcmult_inv_r, Qcmult_1_r.
  - intros q b Hb Hblt Hqb.
    assert (Hnz : (float_of_Z b == 0) = false).
    { rewrite (float_of_Z_normal b Hb Hblt). by destruct (b <? 0)%Z. }
    rewrite (divide_function_nonzero _ _ Hnz).
    eexists _, _. split; [reflexivity|]. split; [reflexivity|].
    destruct (decide (q = 0%Z)) as [->|Hq].
    + rewrite Z.mul_0_l, (float_of_Z_normal b Hb Hblt).
      by destruct (b <? 0)%Z.
    + change (SFeqb (SFmul prec emax (SFdiv prec emax (float_of_Z (q * b)) (float_of_Z b))
                       (float_of_Z b)) (float_of_Z (q * b)) = true).
      rewrite (float_of_Z_div q b Hq Hb Hqb), (float_of_Z_mul q b Hq Hb Hqb).
      apply SFeqb_refl, binary_normalize_not_nan.
Qed.

Lemma divide_multiply_back_when_exact_witness :
  (∃ x, divide (Q2Qc 1) (Q2Qc 49) = Return x ∧
        multiply x (Q2Qc 49) = Return (Q2Qc 1)) ∧
  (∃ x p, divide (float_of_Z 21) (float_of_Z 7) = Return x ∧
          multiply x (float_of_Z 7) = Return p ∧
          (p == float_of_Z 21) = true).
Proof.
  destruct divide_multiply_back_when_exact as [Hexact Hint].
  split.
  - apply (Hexact (Q2Qc 1) (Q2Qc 49)). discriminate.
  - apply (Hint 3%Z 7%Z); [discriminate|reflexivity..].
Defined.



(** Each side condition is needed.  A quotient that underflows loses
    bits: [1.5e-323 / 2 * 2] is [2e-323], a third too much.  A product can
    overflow where the quotient did not: the largest float, divided by 3 and
    multiplied by 3, is the infinity. *)
Example divide_multiply_back_side_conditions :
  (∃ q p, divide (float_of_scaled 3 (-1074)) (float_of_Z 2) = Return q ∧
          multiply q (float_of_Z 2) = Return p ∧
          is_normal q = false ∧
          units (float_of_scaled 3 (-1074)) = 3%Z ∧ units p = 4%Z) ∧
  (∃ q p, divide (S754_finite false (2 ^ 53 - 1) 971) (float_of_Z 3) = Return q ∧
          multiply q (float_of_Z 3) = Return p ∧
          valid (S754_finite false (2 ^ 53 - 1) 971) = true ∧
          is_normal q = true ∧ p = S754_infinity false).
Proof. split; eexists _, _; repeat split. Qed.


(** Without overflow the product can still miss the dividend by a rounding:
    [1.0 / 49.0 * 49.0] is [0.9999999999999999], the float just below [1.0],
    while [10.0 / 4.0 * 4.0] is [10.0]. *)
Example divide_multiply_back_rounds :
  (∃ q p, divide (float_of_Z 1) (float_of_Z 49) = Return q ∧
          multiply q (float_of_Z 49) = Return p ∧
          p = S754_finite false 9007199254740991 (-53) ∧
          (p == float_of_Z 1) = false) ∧
  (∃ q p, divide (float_of_Z 10) (float_of_Z 4) = Return q ∧
          multiply q (float_of_Z 4) = Return p ∧
          (p == float_of_Z 10) = true).
Proof. split; eexists _, _; repeat split. Qed.

(** * Further properties *)

(** ** Instances *)

(** X1. [Calculator(initial_value)] returns a reference that named no
    instance before, holding [initial_value], or [0.0] when none is given;
    every instance there was keeps its value.  Two constructions in a row
    give two different instances, each holding its own value. *)
Theorem construction_is_fresh {num : Type} `{!Arith num}
    (initial_value : option num) (h : heap num) :
  (∃ c h', Calculator.__init__ initial_value h = (Return c, h') ∧
           h !! c = None ∧
           value_at c h' = Some (default 0 initial_value) ∧
           ∀ other, is_Some (h !! other) →
             c ≠ other ∧ value_at other h' = value_at other h) ∧
  (∀ second : option num, ∃ a b h',
     (a ← Calculator.__init__ initial_value;
      b ← Calculator.__init__ second;
      mret (a, b)) h = (Return (a, b), h') ∧
     a ≠ b ∧
     value_at a h' = Some (default 0 initial_value) ∧
     value_at b h' = Some (default 0 second)).
Proof.
  destruct (init_run initial_value h) as (c & Hc & Hrun).
  split.
  - exists c, (<[c := Object (default 0 initial_value)]> h).
    split; [done|]. split; [done|]. split; [apply value_at_insert|].
    intros other [o Ho].
    assert (c ≠ other) as Hne by congruence.
    split; [done|]. by apply value_at_insert_ne.
  - intros second.
    destruct (init_run second (<[c := Object (default 0 initial_value)]> h))
      as (b & Hb & Hrun2).
    assert (c ≠ b) as Hne.
    { intros ->. by rewrite lookup_insert_eq in Hb. }
    exists c, b, (<[b := Object (default 0 second)]>
                   (<[c := Object (default 0 initial_value)]> h)).
    split; [|split; [done|split]].
    + unfold mbind, py_bind. by rewrite Hrun, Hrun2.
    + rewrite value_at_insert_ne by done. apply value_at_insert.
    + apply value_at_insert.
Qed.

(** X2. A call of any method on one instance leaves every other instance
    holding what it held, whether the call returns or raises. *)
Theorem other_instances_untouched {num : Type} `{!Arith num}
    (format : num → string) (self other : loc) (h : heap num) (n : num) :
  self ≠ other →
  value_at other (snd (Calculator.add self n h)) = value_at other h ∧
  value_at other (snd (Calculator.subtract self n h)) = value_at other h ∧
  value_at other (snd (Calculator.multiply self n h)) = value_at other h ∧
  value_at other (snd (Calculator.divide self n h)) = value_at other h ∧
  value_at other (snd (Calculator.reset self h)) = value_at other h ∧
  value_at other (snd (Calculator.__str__ format self h)) = value_at other h ∧
  value_at other (snd (Calculator.__repr__ format self h)) = value_at other h.
Proof.
  intros Hne.
  unfold Calculator.add, Calculator.subtract, Calculator.multiply,
    Calculator.divide, Calculator.reset, Calculator.__str__, Calculator.__repr__,
    truediv, raise, eval, mbind, py_bind, get_value, set_value.
  destruct (n == 0); destruct (h !! self) as [o|] eqn:Ho; simpl;
    rewrite ?Ho; simpl; repeat split; by rewrite ?value_at_insert_ne.
Qed.

Lemma other_instances_untouched_witness :
  value_at 2%positive
    (snd (Calculator.divide 1%positive (float_of_Z 4)
            (pair_of (float_of_Z 10) (float_of_Z 7))))
  = Some (float_of_Z 7) ∧
  value_at 2%positive
    (snd (Calculator.reset 1%positive (pair_of (float_of_Z 10) (float_of_Z 7))))
  = Some (float_of_Z 7).
Proof.
  assert (Hne : (1 ≠ 2)%positive) by discriminate.
  destruct (other_instances_untouched (λ _ : float, "") 1%positive 2%positive
              (pair_of (float_of_Z 10) (float_of_Z 7)) (float_of_Z 4) Hne)
    as (_ & _ & _ & Hdiv & Hreset & _).
  split; [rewrite Hdiv|rewrite Hreset]; reflexivity.
Defined.

(** ** Chains of calls *)

(** X3. A chain of calls on an instance holding [v] does what the free
    functions of the same names do to [v], one after the other: if they all
    return, the chain returns the instance it started from, holding the last
    result; if one raises, the chain raises the same
    [ValueError("Cannot divide by zero")], and nothing else is ever
    raised. *)
Theorem chain_is_composition {num : Type} `{!Arith num}
    (cs : list (call num)) (self : loc) (h : heap num) (v : num) :
  value_at self h = Some v →
  match compose cs v with
  | Return w => ∃ h', chain cs self h = (Return self, h') ∧
                      value_at self h' = Some w
  | Raise e => e = ValueError "Cannot divide by zero" ∧
               ∃ h', chain cs self h = (Raise e, h')
  | Stuck => False
  end.
Proof.
  intros Hv. destruct (compose cs v) as [w|e|] eqn:Hc.
  - destruct (chain_returns cs self h v w Hv Hc) as (h' & Hrun & Hw & _).
    by exists h'.
  - destruct (compose_raises_split cs v e Hc)
      as (pre & c & post & w & -> & Hpre & Hraise).
    destruct (chain_raises pre c post self h v w e Hv Hpre Hraise)
      as (h' & Hrun & _).
    split; [|by exists h'].
    by destruct (invoke_raises c self h w e Hraise).
  - by destruct (compose_not_stuck cs v).
Qed.

Lemma chain_is_composition_witness :
  ∃ h', chain [Add (float_of_Z 5); Multiply (float_of_Z 2); Subtract (float_of_Z 3)]
          1%positive (single (float_of_Z 10)) = (Return 1%positive, h') ∧
        value_at 1%positive h' = Some (float_of_Z 27).
Proof.
  exact (chain_is_composition
           [Add (float_of_Z 5); Multiply (float_of_Z 2); Subtract (float_of_Z 3)]
           1%positive (single (float_of_Z 10)) (float_of_Z 10) eq_refl).
Defined.

(** X4. A chain that reaches [divide(n)] with [n == 0] stops there: it
    raises, the calls after it are not made, and the instance keeps the
    value the calls before it left, not the value it had when the chain
    began.  Other instances are as they were. *)
Theorem chain_keeps_what_preceded_the_error {num : Type} `{!Arith num}
    (pre post : list (call num)) (self : loc) (h : heap num) (v w n : num) :
  value_at self h = Some v → compose pre v = Return w → (n == 0) = true →
  ∃ h', chain (pre ++ Divide n :: post) self h
          = (Raise (ValueError "Cannot divide by zero"), h') ∧
        value_at self h' = Some w ∧
        ∀ other, self ≠ other → value_at other h' = value_at other h.
Proof.
  intros Hv Hpre Hz.
  apply (chain_raises pre (Divide n) post self h v w _ Hv Hpre).
  simpl. by apply divide_function_zero.
Qed.

Lemma chain_keeps_what_preceded_the_error_witness :
  ∃ h', chain ([Add (float_of_Z 5)] ++ Divide (S754_zero false)
                 :: [Multiply (float_of_Z 2)])
          1%positive (single (float_of_Z 10))
          = (Raise (ValueError "Cannot divide by zero"), h') ∧
        value_at 1%positive h' = Some (float_of_Z 15) ∧
        ∀ other, 1%positive ≠ other →
          value_at other h' = value_at other (single (float_of_Z 10)).
Proof.
  exact (chain_keeps_what_preceded_the_error
           [Add (float_of_Z 5)] [Multiply (float_of_Z 2)] 1%positive
           (single (float_of_Z 10)) (float_of_Z 10) (float_of_Z 15)
           (S754_zero false) eq_refl eq_refl eq_refl).
Defined.

(** X5. Chaining is a matter of notation: calls made as separate statements
    on one name do what the same calls do as one chain, because each call
    returns the instance it was made on.  Either way a raise in the first
    part keeps the second from running. *)
Theorem chain_equals_separate_statements {num : Type} `{!Arith num}
    (pre post : list (call num)) (self : loc) (h : heap num) (v : num) :
  value_at self h = Some v →
  (chain pre self;; chain post self) h = chain (pre ++ post) self h.
Proof.
  intros Hv. rewrite chain_app. unfold mbind, py_bind.
  destruct (compose pre v) as [w|e|] eqn:Hc.
  - destruct (chain_returns pre self h v w Hv Hc) as (h' & Hrun & _).
    by rewrite Hrun.
  - destruct (compose_raises_split pre v e Hc)
      as (pre' & c & post' & w & -> & Hpre & Hraise).
    destruct (chain_raises pre' c post' self h v w e Hv Hpre Hraise)
      as (h' & Hrun & _).
    by rewrite Hrun.
  - by destruct (compose_not_stuck pre v).
Qed.

Lemma chain_equals_separate_statements_witness :
  (chain [Add (float_of_Z 5)] 1%positive;;
   chain [Multiply (float_of_Z 2); Subtract (float_of_Z 3)] 1%positive)
    (single (float_of_Z 10))
  = chain ([Add (float_of_Z 5)] ++ [Multiply (float_of_Z 2); Subtract (float_of_Z 3)])
      1%positive (single (float_of_Z 10)).
Proof.
  exact (chain_equals_separate_statements [Add (float_of_Z 5)]
           [Multiply (float_of_Z 2); Subtract (float_of_Z 3)] 1%positive
           (single (float_of_Z 10)) (float_of_Z 10) eq_refl).
Defined.

(** ** Special values *)

(** X6. With finite operands no function returns NaN: [add], [subtract] and
    [multiply] return a number (an infinity on overflow), and so does
    [divide] whenever the divisor is not zero. *)
Theorem finite_operands_give_no_nan (a b : float) :
  is_finite a = true → is_finite b = true →
  (∃ x, add a b = Return x ∧ is_nan x = false) ∧
  (∃ x, subtract a b = Return x ∧ is_nan x = false) ∧
  (∃ x, multiply a b = Return x ∧ is_nan x = false) ∧
  ((b == 0) = false → ∃ x, divide a b = Return x ∧ is_nan x = false).
Proof.
  intros Ha Hb. repeat split.
  - eexists. split; [reflexivity|]. by apply SFadd_finite_not_nan.
  - eexists. split; [reflexivity|]. by apply SFsub_finite_not_nan.
  - eexists. split; [reflexivity|]. by apply SFmul_finite_not_nan.
  - intros Hz. rewrite (divide_function_nonzero a b Hz).
    eexists. split; [reflexivity|].
    rewrite eq_zero_is_zero in Hz. by apply SFdiv_finite_not_nan.
Qed.

Lemma finite_operands_give_no_nan_witness :
  (∃ x, add (float_of_Z (2 ^ 1023)) (float_of_Z (2 ^ 1023)) = Return x ∧
        is_nan x = false) ∧
  (∃ x, divide (float_of_Z 1) (float_of_scaled 1 (-1074)) = Return x ∧
        is_nan x = false).
Proof.
  split.
  - apply (finite_operands_give_no_nan (float_of_Z (2 ^ 1023)) (float_of_Z (2 ^ 1023)));
      reflexivity.
  - apply (finite_operands_give_no_nan (float_of_Z 1) (float_of_scaled 1 (-1074)));
      reflexivity.
Defined.

(** With an infinite operand each of the four can return NaN, and
    [divide] does so without raising. *)
Example infinite_operands_give_nan :
  add (S754_infinity false) (S754_infinity true) = Return S754_nan ∧
  subtract (S754_infinity false) (S754_infinity false) = Return S754_nan ∧
  multiply (S754_infinity false) (S754_zero false) = Return S754_nan ∧
  divide (S754_infinity false) (S754_infinity false) = Return S754_nan.
Proof. by repeat split. Qed.



(** ** Undoing a call *)



(** Beyond that range a call is not undone: from [2.0 ** 53], [add(1)] then
    [subtract(1)] ends one below, and from [1.0], [divide(49)] then
    [multiply(49)] ends just below [1.0]. *)
Example round_trips_round :
  compose [Add (float_of_Z 1); Subtract (float_of_Z 1)] (float_of_Z (2 ^ 53))
    = Return (float_of_Z (2 ^ 53 - 1)) ∧
  compose [Divide (float_of_Z 49); Multiply (float_of_Z 49)] (float_of_Z 1)
    = Return (S754_finite false 9007199254740991 (-53)).
Proof. by split. Qed.
